(** * DecoPlan: the multimodal processor

    A shallow embedding of [src/multimodal_processor.cpp]: the lifecycle of
    [decoplan::MultimodalProcessor] (constructor, [initialize], [cleanup],
    destructor), the single-slot image embedding, and the two generation
    paths.

    The processor talks to two native collaborators whose code is not part
    of this file: [LLMWrapper] (the text engine, owned through a
    [std::unique_ptr]) and the llava/clip C API (raw pointers).  The engine
    is an interface here, a type class; the raw pointers are [option]s over
    abstract handle types, with [None] for [nullptr].  Every state-changing
    call into a collaborator, and every line written to [std::cerr] or
    [std::cout], is recorded in a trace, so that "which calls were made, and
    in which order" is a statement about a list. *)

From Stdlib Require Import String Ascii List Bool ZArith QArith Lia.
Import ListNotations.

Set Implicit Arguments.
Open Scope string_scope.

(** ** Native types *)

(** The types the C++ code only passes around: [float] (two tuning
    parameters, copied field by field), the objects behind the raw pointers
    [clip_ctx*] and [llava_image_embed*], and the streaming callback
    [LLMWrapper::StreamCallback]. *)
Class Native : Type := {
  float : Type;
  clip_ctx : Type;
  llava_image_embed : Type;
  StreamCallback : Type
}.

(** The line feed of the C++ escape in the prompt template. *)
Definition LF : string := String (ascii_of_nat 10) EmptyString.

(** [std::string::empty]. *)
Definition empty (s : string) : bool :=
  match s with
  | EmptyString => true
  | String _ _ => false
  end.

(** ** Outcomes and the processor monad *)

(** A call returns, throws a [std::runtime_error] with its [what()] string,
    or is undefined (a member call through a null [unique_ptr]). *)
Inductive outcome (A : Type) : Type :=
| Ret (a : A)
| Throw (what : string)
| Undefined.

Arguments Ret {A} a.
Arguments Throw {A} what.
Arguments Undefined {A}.

Module Proc.

(** State passing over a world [W], with exceptions: the world at the
    point of the throw is the world the caller sees. *)
Definition M (W A : Type) : Type := W -> outcome A * W.

Definition ret {W A} (a : A) : M W A := fun w => (Ret a, w).

Definition bind {W A B} (c : M W A) (k : A -> M W B) : M W B :=
  fun w =>
    match c w with
    | (Ret a, w') => k a w'
    | (Throw e, w') => (Throw e, w')
    | (Undefined, w') => (Undefined, w')
    end.

Definition throw {W A} (what : string) : M W A := fun w => (Throw what, w).

Definition gets {W A} (f : W -> A) : M W A := fun w => (Ret (f w), w).

Definition modify {W} (f : W -> W) : M W unit := fun w => (Ret tt, f w).

(** [if (c) { body }] with no else branch. *)
Definition when {W} (c : bool) (body : M W unit) : M W unit :=
  if c then body else ret tt.

End Proc.

Import Proc.

Declare Scope proc_scope.
Delimit Scope proc_scope with proc.
Notation "x <- c ;; k" := (bind c (fun x => k))
  (at level 61, c at next level, right associativity) : proc_scope.
Notation "c ;; k" := (bind c (fun _ => k))
  (at level 61, right associativity) : proc_scope.
Open Scope proc_scope.

Section Model.

Context {NT : Native}.

(** ** Configurations *)

(** [MultimodalConfig], with the fields [initialize] reads. *)
Record MultimodalConfig : Type := {
  model_path : string;
  clip_model_path : string;
  n_ctx : Z;
  n_gpu_layers : Z;
  n_batch : Z;
  n_ubatch : Z;
  n_predict : Z;
  temperature : float;
  top_p : float;
  top_k : Z;
  seed : Z;
  n_threads : Z
}.

(** [InferenceConfig], with the fields [initialize] writes. *)
Record InferenceConfig : Type := {
  llm_model_path : string;
  llm_n_ctx : Z;
  llm_n_gpu_layers : Z;
  llm_n_batch : Z;
  llm_n_ubatch : Z;
  llm_n_predict : Z;
  llm_temperature : float;
  llm_top_p : float;
  llm_top_k : Z;
  llm_seed : Z;
  llm_n_threads : Z
}.

(** Lines 26-37: the field-by-field copy into [llm_config]. *)
Definition llm_config_of (config : MultimodalConfig) : InferenceConfig :=
  {| llm_model_path := model_path config;
     llm_n_ctx := n_ctx config;
     llm_n_gpu_layers := n_gpu_layers config;
     llm_n_batch := n_batch config;
     llm_n_ubatch := n_ubatch config;
     llm_n_predict := n_predict config;
     llm_temperature := temperature config;
     llm_top_p := top_p config;
     llm_top_k := top_k config;
     llm_seed := seed config;
     llm_n_threads := n_threads config |}.

(** ** The engine interface *)

(** What the processor uses of [LLMWrapper].  [LLMWrapper] is the state of
    one engine object; [make_unique] is the default-constructed one.
    [llm_isLoaded] is the [const] query; the others may change the
    engine, and the two generation calls may throw. *)
Class InferenceEngine : Type := {
  LLMWrapper : Type;
  make_unique : LLMWrapper;
  llm_initialize : InferenceConfig -> LLMWrapper -> bool * LLMWrapper;
  llm_cleanup : LLMWrapper -> LLMWrapper;
  llm_isLoaded : LLMWrapper -> bool;
  llm_generate : string -> LLMWrapper -> outcome string * LLMWrapper;
  llm_generateStreaming :
    string -> StreamCallback -> LLMWrapper -> outcome unit * LLMWrapper
}.

(** The contract [isLoaded] relies on after a failed [initialize]: an
    engine that could not be initialised does not report itself loaded. *)
Class InferenceEngineContract (E : InferenceEngine) : Prop := {
  failed_initialize_not_loaded :
    forall cfg e, fst (llm_initialize cfg e) = false ->
                  llm_isLoaded (snd (llm_initialize cfg e)) = false
}.

(** ** The trace *)

(** State-changing calls into the collaborators and the diagnostics, in
    program order.  [Ev_clip_free] and [Ev_clip_model_load] are calls of
    the clip API that the source names only inside comments. *)
Inductive Event : Type :=
| Ev_llm_new
| Ev_llm_delete
| Ev_llm_initialize (llm_config : InferenceConfig)
| Ev_llm_cleanup
| Ev_llm_generate (full_prompt : string)
| Ev_llm_generateStreaming (full_prompt : string) (callback : StreamCallback)
| Ev_llava_image_embed_free (embed : llava_image_embed)
| Ev_clip_free (ctx : clip_ctx)
| Ev_clip_model_load (path : string)
| Ev_cerr (line : string)
| Ev_cout (line : string).

Context {E : InferenceEngine}.

(** ** The processor *)

(** The four data members of [MultimodalProcessor]. *)
Record MultimodalProcessor : Type := {
  llm_ : option LLMWrapper;
  clip_ctx_ : option clip_ctx;
  image_embed_ : option llava_image_embed;
  config_ : MultimodalConfig
}.

(** The processor object together with what the outside has seen. *)
Record World : Type := {
  self : MultimodalProcessor;
  trace : list Event
}.

Definition set_llm (v : option LLMWrapper) (w : World) : World :=
  {| self := {| llm_ := v;
                clip_ctx_ := clip_ctx_ (self w);
                image_embed_ := image_embed_ (self w);
                config_ := config_ (self w) |};
     trace := trace w |}.

Definition set_clip_ctx (v : option clip_ctx) (w : World) : World :=
  {| self := {| llm_ := llm_ (self w);
                clip_ctx_ := v;
                image_embed_ := image_embed_ (self w);
                config_ := config_ (self w) |};
     trace := trace w |}.

Definition set_image_embed (v : option llava_image_embed) (w : World) : World :=
  {| self := {| llm_ := llm_ (self w);
                clip_ctx_ := clip_ctx_ (self w);
                image_embed_ := v;
                config_ := config_ (self w) |};
     trace := trace w |}.

Definition set_config (v : MultimodalConfig) (w : World) : World :=
  {| self := {| llm_ := llm_ (self w);
                clip_ctx_ := clip_ctx_ (self w);
                image_embed_ := image_embed_ (self w);
                config_ := v |};
     trace := trace w |}.

Definition emit (ev : Event) : M World unit :=
  modify (fun w => {| self := self w; trace := trace w ++ [ev] |}).

(** A pointer in a condition: true when it is not null. *)
Definition non_null {A} (p : option A) : bool :=
  match p with
  | Some _ => true
  | None => false
  end.

(** Lines 10-14: the constructor nulls the three pointers; [config_] is
    default-constructed, with the defaults of the header, [config0]. *)
Definition MultimodalProcessor_new (config0 : MultimodalConfig) : World :=
  {| self := {| llm_ := None;
                clip_ctx_ := None;
                image_embed_ := None;
                config_ := config0 |};
     trace := [] |}.

(** ** Calls through [llm_] *)

(** [llm_->m(...)]: undefined when [llm_] is null; otherwise the call is
    recorded, the engine object changes in place, and an exception of the
    engine propagates. *)
Definition arrow {A} (ev : Event) (m : LLMWrapper -> outcome A * LLMWrapper)
  : M World A :=
  fun w =>
    match llm_ (self w) with
    | None => (Undefined, w)
    | Some e =>
        (fst (m e),
         set_llm (Some (snd (m e)))
                 {| self := self w; trace := trace w ++ [ev] |})
    end.

Definition llm_arrow_initialize (llm_config : InferenceConfig) : M World bool :=
  arrow (Ev_llm_initialize llm_config)
        (fun e => (Ret (fst (llm_initialize llm_config e)),
                   snd (llm_initialize llm_config e))).

Definition llm_arrow_cleanup : M World unit :=
  arrow Ev_llm_cleanup (fun e => (Ret tt, llm_cleanup e)).

Definition llm_arrow_generate (full_prompt : string) : M World string :=
  arrow (Ev_llm_generate full_prompt) (llm_generate full_prompt).

Definition llm_arrow_generateStreaming
           (full_prompt : string) (callback : StreamCallback) : M World unit :=
  arrow (Ev_llm_generateStreaming full_prompt callback)
        (llm_generateStreaming full_prompt callback).

(** ** Member functions *)

(** Lines 165-167: [return llm_ && llm_->isLoaded();], a [const] query. *)
Definition isLoaded (p : MultimodalProcessor) : bool :=
  match llm_ p with
  | Some e => llm_isLoaded e
  | None => false
  end.

(** Lines 20-63.  Assigning the fresh [unique_ptr] destroys the engine
    [llm_] held before, if any.  The call that would set [clip_ctx_]
    (line 52) is a comment, so the test of line 54 reads the member as it
    was. *)
Definition initialize (config : MultimodalConfig) : M World bool :=
  modify (set_config config) ;;
  old <- gets (fun w => llm_ (self w)) ;;
  emit Ev_llm_new ;;
  when (non_null old) (emit Ev_llm_delete) ;;
  modify (set_llm (Some make_unique)) ;;
  let llm_config := llm_config_of config in
  ok <- llm_arrow_initialize llm_config ;;
  if negb ok then
    emit (Ev_cerr "Failed to initialize LLM") ;;
    ret false
  else
    when (negb (empty (clip_model_path config)))
         (emit (Ev_cout ("Loading vision encoder from: "
                           ++ clip_model_path config)) ;;
          clip <- gets (fun w => clip_ctx_ (self w)) ;;
          if negb (non_null clip) then
            emit (Ev_cerr "Note: Vision encoder not loaded. Text-only mode.")
          else
            emit (Ev_cout "Vision encoder loaded successfully!")) ;;
    ret true.

(** Lines 66-69 and 89-92: free the embedding, then null the pointer. *)
Definition free_image_embed : M World unit :=
  embed <- gets (fun w => image_embed_ (self w)) ;;
  match embed with
  | Some e =>
      emit (Ev_llava_image_embed_free e) ;;
      modify (set_image_embed None)
  | None => ret tt
  end.

(** Lines 65-80.  [clip_free] (line 72) is a comment: the encoder pointer
    is only nulled.  [llm_.reset()] destroys the engine object. *)
Definition cleanup : M World unit :=
  free_image_embed ;;
  clip <- gets (fun w => clip_ctx_ (self w)) ;;
  when (non_null clip) (modify (set_clip_ctx None)) ;;
  p <- gets (fun w => llm_ (self w)) ;;
  when (non_null p)
       (llm_arrow_cleanup ;;
        emit Ev_llm_delete ;;
        modify (set_llm None)).

(** Lines 16-18. *)
Definition MultimodalProcessor_delete : M World unit := cleanup.

(** Lines 82-107.  Decoding and encoding (lines 96-103) are comments: the
    function ends with [return clip_ctx_ != nullptr;]. *)
Definition loadImage (image_path : string) : M World bool :=
  clip <- gets (fun w => clip_ctx_ (self w)) ;;
  if negb (non_null clip) then
    emit (Ev_cerr "Vision encoder not initialized") ;;
    ret false
  else
    free_image_embed ;;
    clip' <- gets (fun w => clip_ctx_ (self w)) ;;
    ret (non_null clip').

(** The body of [generateFromImage], lines 109-138, with the member call
    [loadImage(image_path)] of line 118 taken as [load]; [&&] evaluates it
    only when [clip_ctx_] is not null. *)
Definition generateFromImage_with (load : string -> M World bool)
           (image_path prompt : string) : M World string :=
  loaded <- gets (fun w => isLoaded (self w)) ;;
  if negb loaded then throw "Multimodal processor not initialized" else
  clip <- gets (fun w => clip_ctx_ (self w)) ;;
  failed <- (if non_null clip
             then ok <- load image_path ;; ret (negb ok)
             else ret false) ;;
  if failed then throw ("Failed to load image: " ++ image_path) else
  clip <- gets (fun w => clip_ctx_ (self w)) ;;
  let full_prompt :=
    if non_null clip
    then "USER: <image>" ++ LF ++ prompt ++ LF ++ "ASSISTANT: "
    else prompt in
  llm_arrow_generate full_prompt.

Definition generateFromImage : string -> string -> M World string :=
  generateFromImage_with loadImage.

(** The body of [generateFromImageStreaming], lines 140-163, in the same
    way. *)
Definition generateFromImageStreaming_with (load : string -> M World bool)
           (image_path prompt : string) (callback : StreamCallback)
  : M World unit :=
  loaded <- gets (fun w => isLoaded (self w)) ;;
  if negb loaded then throw "Multimodal processor not initialized" else
  clip <- gets (fun w => clip_ctx_ (self w)) ;;
  failed <- (if non_null clip
             then ok <- load image_path ;; ret (negb ok)
             else ret false) ;;
  if failed then throw ("Failed to load image: " ++ image_path) else
  clip <- gets (fun w => clip_ctx_ (self w)) ;;
  let full_prompt :=
    if non_null clip
    then "USER: <image>" ++ LF ++ prompt ++ LF ++ "ASSISTANT: "
    else prompt in
  llm_arrow_generateStreaming full_prompt callback.

Definition generateFromImageStreaming
  : string -> string -> StreamCallback -> M World unit :=
  generateFromImageStreaming_with loadImage.

End Model.

Arguments MultimodalProcessor_new {NT E} config0.

(** ** Notions of the specification *)

Section Notions.

Context {NT : Native} {E : InferenceEngine}.

(** The three modes of the data model, derived from the two handles:
    uninitialized (no engine), text-only (engine, no vision encoder),
    multimodal (engine and vision encoder). *)
Inductive Mode : Type := Uninitialized | TextOnly | Multimodal.

Definition mode (p : MultimodalProcessor) : Mode :=
  match llm_ p, clip_ctx_ p with
  | None, _ => Uninitialized
  | Some _, None => TextOnly
  | Some _, Some _ => Multimodal
  end.

(** Prompt construction as section 4.4 words it: a pure function of the
    mode and the raw user prompt. *)
Definition expected_prompt (multimodal : bool) (userPrompt : string) : string :=
  if multimodal
  then "USER: <image>" ++ LF ++ userPrompt ++ LF ++ "ASSISTANT: "
  else userPrompt.

(** A processor with no partial state: no engine handle, no vision-encoder
    handle, no cached embedding, and the configuration it was constructed
    with. *)
Definition fully_uninitialized (config0 : MultimodalConfig)
           (p : MultimodalProcessor) : Prop :=
  llm_ p = None /\ clip_ctx_ p = None /\ image_embed_ p = None
  /\ config_ p = config0.

(** What the embedding slot releases when it is emptied. *)
Definition embed_release (p : MultimodalProcessor) : list Event :=
  match image_embed_ p with
  | Some e => [Ev_llava_image_embed_free e]
  | None => []
  end.

(** What the engine handle releases when it is emptied: the engine's own
    [cleanup], then the destruction of the object. *)
Definition engine_release (p : MultimodalProcessor) : list Event :=
  match llm_ p with
  | Some _ => [Ev_llm_cleanup; Ev_llm_delete]
  | None => []
  end.

(** The diagnostics of [initialize] after the engine's own [initialize]
    returned [ok], for the encoder handle [clip] the processor holds. *)
Definition initialize_diagnostics (ok : bool) (config : MultimodalConfig)
           (clip : option clip_ctx) : list Event :=
  if ok then
    if empty (clip_model_path config) then []
    else [Ev_cout ("Loading vision encoder from: " ++ clip_model_path config);
          match clip with
          | Some _ => Ev_cout "Vision encoder loaded successfully!"
          | None => Ev_cerr "Note: Vision encoder not loaded. Text-only mode."
          end]
  else [Ev_cerr "Failed to initialize LLM"].



(** The part the two generation methods share, in the words of sections
    4.5 and 4.6: verify the processor is loaded, else fail; if a vision
    encoder is present, load the image, whose failure aborts with an
    image-load error; build the full prompt per 4.4. *)
Definition generation_prelude (load : string -> M World bool)
           (imagePath userPrompt : string) : M World string :=
  fun w =>
    if isLoaded (self w) then
      match clip_ctx_ (self w) with
      | Some _ =>
          match load imagePath w with
          | (Ret true, w1) =>
              (Ret (expected_prompt (non_null (clip_ctx_ (self w1))) userPrompt), w1)
          | (Ret false, w1) => (Throw ("Failed to load image: " ++ imagePath), w1)
          | (Throw what, w1) => (Throw what, w1)
          | (Undefined, w1) => (Undefined, w1)
          end
      | None => (Ret (expected_prompt false userPrompt), w)
      end
    else (Throw "Multimodal processor not initialized", w).

(** ** Call histories *)

(** The public calls of section 6. *)
Inductive Call : Type :=
| Call_initialize (config : MultimodalConfig)
| Call_cleanup
| Call_loadImage (image_path : string)
| Call_generateFromImage (image_path prompt : string)
| Call_generateFromImageStreaming (image_path prompt : string)
                                  (callback : StreamCallback)
| Call_isLoaded.

(** The world after a call, whether it returned or threw. *)
Definition exec (c : Call) (w : World) : World :=
  match c with
  | Call_initialize config => snd (initialize config w)
  | Call_cleanup => snd (cleanup w)
  | Call_loadImage image_path => snd (loadImage image_path w)
  | Call_generateFromImage image_path prompt =>
      snd (generateFromImage image_path prompt w)
  | Call_generateFromImageStreaming image_path prompt callback =>
      snd (generateFromImageStreaming image_path prompt callback w)
  | Call_isLoaded => w
  end.

(** [reachable config0 cs w]: [w] is the world of a processor constructed
    with the header defaults [config0] after the calls [cs], oldest
    first. *)
Inductive reachable (config0 : MultimodalConfig) : list Call -> World -> Prop :=
| reachable_new : reachable config0 [] (MultimodalProcessor_new config0)
| reachable_call : forall cs w c,
    reachable config0 cs w -> reachable config0 (cs ++ [c]) (exec c w).

(** The events a public call may add to the trace of a processor without
    vision encoder: a generation call into the engine only from the
    matching generation method, with that method's own prompt; no call of
    the clip API at all. *)
Definition event_of_call (c : Call) (ev : Event) : Prop :=
  match ev with
  | Ev_llm_generate fp => exists path, c = Call_generateFromImage path fp
  | Ev_llm_generateStreaming fp cb =>
      exists path, c = Call_generateFromImageStreaming path fp cb
  | Ev_clip_free _ | Ev_clip_model_load _ => False
  | _ => True
  end.

(** The same for a history of calls. *)
Definition event_of_history (cs : list Call) (ev : Event) : Prop :=
  match ev with
  | Ev_llm_generate fp => exists path, In (Call_generateFromImage path fp) cs
  | Ev_llm_generateStreaming fp cb =>
      exists path, In (Call_generateFromImageStreaming path fp cb) cs
  | Ev_clip_free _ | Ev_clip_model_load _ => False
  | _ => True
  end.

(** The world in which the engine is called: the slot is emptied first when
    a vision encoder is present. *)
Definition before_engine_call (w : World) : World :=
  if non_null (clip_ctx_ (self w))
  then {| self := {| llm_ := llm_ (self w);
                     clip_ctx_ := clip_ctx_ (self w);
                     image_embed_ := None;
                     config_ := config_ (self w) |};
          trace := trace w ++ embed_release (self w) |}
  else w.

(** ** Counting engine objects *)

(** Construction and destruction of an engine object in the trace. *)
Definition is_llm_new (ev : Event) : bool :=
  match ev with
  | Ev_llm_new => true
  | _ => false
  end.

Definition is_llm_delete (ev : Event) : bool :=
  match ev with
  | Ev_llm_delete => true
  | _ => false
  end.

Definition count_events (f : Event -> bool) (evs : list Event) : nat :=
  length (filter f evs).

(** The engine objects the processor holds: one or none. *)
Definition engines_held (p : MultimodalProcessor) : nat :=
  if non_null (llm_ p) then 1%nat else 0%nat.

(** The engine objects alive after a list of events, starting from [alive]
    of them; [None] when an event destroys an engine that does not exist or
    calls into an engine while none exists. *)
Fixpoint engine_protocol (alive : nat) (evs : list Event) : option nat :=
  match evs with
  | [] => Some alive
  | Ev_llm_new :: evs' => engine_protocol (S alive) evs'
  | Ev_llm_delete :: evs' =>
      match alive with
      | O => None
      | S n => engine_protocol n evs'
      end
  | (Ev_llm_initialize _ | Ev_llm_cleanup | Ev_llm_generate _
     | Ev_llm_generateStreaming _ _) :: evs' =>
      match alive with
      | O => None
      | S _ => engine_protocol alive evs'
      end
  | _ :: evs' => engine_protocol alive evs'
  end.

(** Events that need an embedding in the slot or an encoder behind
    [clip_ctx_]: the release of an embedding, and the success line of
    [initialize] (line 58). *)
Definition needs_encoder (ev : Event) : Prop :=
  match ev with
  | Ev_llava_image_embed_free _ => True
  | Ev_cout line => line = "Vision encoder loaded successfully!"
  | _ => False
  end.

(** The configuration of the latest [initialize] of a history, or the
    default of the constructor when there is none. *)
Definition last_config (config0 : MultimodalConfig) (cs : list Call)
  : MultimodalConfig :=
  fold_left (fun acc c =>
               match c with
               | Call_initialize config => config
               | _ => acc
               end) cs config0.

End Notions.

(** ** The engine of the specification *)

Section SpecEngine.

Context {NT : Native}.

(** Which language-model paths identify a loadable model, and what
    generation produces: left open by the specification. *)
Variable loadable : string -> bool.
Variable generate : string -> option string -> outcome string.
Variable generateStreaming :
  string -> StreamCallback -> option string -> outcome unit.

(** Modelled from the spec: the InferenceEngine behind [LLMWrapper], whose
    code is not in [src/].  Section 2: the engine "owns a loaded language
    model and generation context"; section 4.1: the language-model path
    "must identify a loadable model for the underlying engine"; section 6:
    [initialize] reports success or failure, [isLoaded] a boolean,
    [cleanup] is idempotent; section 7: after an initialisation failure
    "the InferenceEngine could not be loaded".  The state of the engine is
    the model it owns, if any: [initialize] loads the model of a loadable
    path and succeeds, and on any other path fails and owns none;
    [isLoaded] reports whether a model is owned; [cleanup] gives the model
    up; generation does not change the model owned. *)
Definition spec_engine : InferenceEngine :=
  {| LLMWrapper := option string;
     make_unique := None;
     llm_initialize := fun cfg _ =>
       if loadable (llm_model_path cfg)
       then (true, Some (llm_model_path cfg))
       else (false, None);
     llm_cleanup := fun _ => None;
     llm_isLoaded := fun e => non_null e;
     llm_generate := fun p e => (generate p e, e);
     llm_generateStreaming := fun p cb e => (generateStreaming p cb e, e) |}.

End SpecEngine.

(** ** A test double *)

Module TestDouble.

(** Floats as rationals and handles as numbers. *)
#[export] Instance native : Native :=
  {| float := Q; clip_ctx := nat; llava_image_embed := nat;
     StreamCallback := nat |}.

(** An engine that loads exactly the model file ["model.gguf"], answers
    every prompt by echoing it, and remembers whether it is loaded. *)
#[export] Instance engine : InferenceEngine :=
  {| LLMWrapper := bool;
     make_unique := false;
     llm_initialize := fun cfg _ =>
       if String.eqb (llm_model_path cfg) "model.gguf"
       then (true, true) else (false, false);
     llm_cleanup := fun _ => false;
     llm_isLoaded := fun e => e;
     llm_generate := fun p e =>
       if e then (Ret ("echo: " ++ p), e) else (Throw "Model not loaded", e);
     llm_generateStreaming := fun p _ e =>
       if e then (Ret tt, e) else (Throw "Model not loaded", e) |}.

Definition config0 : MultimodalConfig :=
  {| model_path := ""; clip_model_path := "";
     n_ctx := 2048; n_gpu_layers := 0; n_batch := 512; n_ubatch := 512;
     n_predict := 128; temperature := 7 # 10; top_p := 9 # 10;
     top_k := 40; seed := -1; n_threads := 4 |}.

(** A loadable language model and a vision-encoder path. *)
Definition good_config : MultimodalConfig :=
  {| model_path := "model.gguf"; clip_model_path := "mmproj.gguf";
     n_ctx := 4096; n_gpu_layers := 32; n_batch := 512; n_ubatch := 512;
     n_predict := 256; temperature := 7 # 10; top_p := 9 # 10;
     top_k := 40; seed := 42; n_threads := 8 |}.

(** A language model the engine cannot load. *)
Definition bad_config : MultimodalConfig :=
  {| model_path := "missing.gguf"; clip_model_path := "mmproj.gguf";
     n_ctx := 4096; n_gpu_layers := 32; n_batch := 512; n_ubatch := 512;
     n_predict := 256; temperature := 7 # 10; top_p := 9 # 10;
     top_k := 40; seed := 42; n_threads := 8 |}.

Definition fresh : World := MultimodalProcessor_new config0.

(** A world no call sequence produces: a loaded engine, a vision encoder
    behind [clip_ctx_], and an embedding in the slot. *)
Definition multimodal_world : World :=
  {| self := {| llm_ := Some true; clip_ctx_ := Some 7%nat;
                image_embed_ := Some 3%nat; config_ := good_config |};
     trace := [] |}.

(** A loader that always fails, for the image-load branch. *)
Definition failing_load (_ : string) : M World bool := ret false.

(** A session: initialise, describe an image, clean up. *)
Definition session : list Call :=
  [Call_initialize good_config;
   Call_generateFromImage "room.png" "Describe this";
   Call_cleanup].

Definition session_world : World :=
  fold_left (fun w c => exec c w) session fresh.

(** A longer session: a failed [initialize], a generation attempt, two
    successful [initialize] in a row, a streamed generation, an image load;
    no [cleanup] at the end. *)
Definition long_session : list Call :=
  [Call_initialize bad_config;
   Call_generateFromImage "room.png" "Describe this";
   Call_initialize good_config;
   Call_initialize good_config;
   Call_generateFromImageStreaming "room.png" "Describe this" 0%nat;
   Call_loadImage "room.png"].

Definition long_session_world : World :=
  fold_left (fun w c => exec c w) long_session fresh.

(** The engine of the specification, loading exactly ["model.gguf"] and
    echoing its prompts. *)
Definition spec_double : InferenceEngine :=
  spec_engine (fun path => String.eqb path "model.gguf")
              (fun p _ => Ret ("echo: " ++ p))
              (fun _ _ _ => Ret tt).

Definition spec_fresh : World (E := spec_double) :=
  MultimodalProcessor_new (E := spec_double) config0.

End TestDouble.

(** * Properties *)

Section Properties.

Context {NT : Native} {E : InferenceEngine}.

(** Unfolds the monad and the member functions down to matches on the
    members of the processor. *)
Ltac run :=
  unfold generateFromImage, generateFromImageStreaming,
    generateFromImage_with, generateFromImageStreaming_with,
    generation_prelude, expected_prompt,
    loadImage, cleanup, initialize, free_image_embed,
    llm_arrow_generate, llm_arrow_generateStreaming, llm_arrow_cleanup,
    llm_arrow_initialize, arrow, emit, isLoaded,
    set_llm, set_clip_ctx, set_image_embed, set_config,
    when, bind, ret, throw, gets, modify, non_null;
  cbn [self trace llm_ clip_ctx_ image_embed_ config_ fst snd negb].

(** ** Shared facts *)

(** [free_image_embed] empties the slot and records one release when the
    slot was full. *)
Lemma free_image_embed_run (w : World) :
  free_image_embed w =
  (Ret tt, {| self := {| llm_ := llm_ (self w);
                         clip_ctx_ := clip_ctx_ (self w);
                         image_embed_ := None;
                         config_ := config_ (self w) |};
              trace := trace w ++ embed_release (self w) |}).
Proof.
  destruct w as [[l c [e|] cfg] t]; run; unfold embed_release; cbn.
  - reflexivity.
  - rewrite app_nil_r. reflexivity.
Qed.

(** [loadImage] without a vision encoder: one diagnostic, nothing else. *)
Lemma loadImage_no_encoder (image_path : string) (w : World) :
  clip_ctx_ (self w) = None ->
  loadImage image_path w =
  (Ret false,
   {| self := self w;
      trace := trace w ++ [Ev_cerr "Vision encoder not initialized"] |}).
Proof.
  destruct w as [[l c e cfg] t]. cbn. intros ->. reflexivity.
Qed.

(** [loadImage] with a vision encoder: the slot is emptied and the call
    reports success. *)
Lemma loadImage_encoder (image_path : string) (w : World) :
  clip_ctx_ (self w) <> None ->
  loadImage image_path w =
  (Ret true,
   {| self := {| llm_ := llm_ (self w);
                 clip_ctx_ := clip_ctx_ (self w);
                 image_embed_ := None;
                 config_ := config_ (self w) |};
      trace := trace w ++ embed_release (self w) |}).
Proof.
  intros Hc. unfold loadImage, bind at 1, gets at 1.
  destruct (clip_ctx_ (self w)) as [c|] eqn:Hclip; [|congruence].
  cbn [non_null negb]. unfold bind. rewrite free_image_embed_run.
  unfold gets, ret. cbn. rewrite Hclip. reflexivity.
Qed.

(** The whole effect of [cleanup]. *)
Lemma cleanup_run (w : World) :
  cleanup w =
  (Ret tt, {| self := {| llm_ := None; clip_ctx_ := None;
                         image_embed_ := None;
                         config_ := config_ (self w) |};
              trace := trace w ++ embed_release (self w)
                             ++ engine_release (self w) |}).
Proof.
  unfold cleanup, bind at 1. rewrite free_image_embed_run.
  destruct w as [[[l|] [c|] e cfg] t]; run; unfold engine_release; cbn;
    rewrite <- ?app_assoc, ?app_nil_r; reflexivity.
Qed.

(** The whole effect of [initialize]: the configuration is stored, a new
    engine object replaces the old one and is initialised, and the
    diagnostics follow; the two raw pointers are not written. *)
Lemma initialize_run (config : MultimodalConfig) (w : World) :
  initialize config w =
  (Ret (fst (llm_initialize (llm_config_of config) make_unique)),
   {| self := {| llm_ := Some (snd (llm_initialize (llm_config_of config)
                                                   make_unique));
                 clip_ctx_ := clip_ctx_ (self w);
                 image_embed_ := image_embed_ (self w);
                 config_ := config |};
      trace := trace w
               ++ Ev_llm_new
               :: (if non_null (llm_ (self w)) then [Ev_llm_delete] else [])
               ++ Ev_llm_initialize (llm_config_of config)
               :: initialize_diagnostics
                    (fst (llm_initialize (llm_config_of config) make_unique))
                    config (clip_ctx_ (self w)) |}).
Proof.
  destruct w as [[l c e cfg] t]. run. unfold initialize_diagnostics.
  destruct (llm_initialize (llm_config_of config) make_unique) as [ok e'].
  cbn [fst snd].
  destruct l, ok, (empty (clip_model_path config)), c; cbn;
    rewrite <- ?app_assoc; reflexivity.
Qed.

(** Both generation methods are the shared prelude followed by one call
    into the engine. *)
Lemma generateFromImage_with_prelude load image_path prompt w :
  generateFromImage_with load image_path prompt w =
  bind (generation_prelude load image_path prompt) llm_arrow_generate w.
Proof.
  destruct w as [[l c e cfg] t].
  unfold generateFromImage_with, generation_prelude, bind, gets, ret, throw,
    expected_prompt.
  destruct (isLoaded _); cbn [negb]; [|reflexivity].
  destruct c as [c|]; cbn [self clip_ctx_ non_null]; [|reflexivity].
  destruct (load image_path _) as [[[|]| |] w1]; cbn [negb]; reflexivity.
Qed.

Lemma generateFromImageStreaming_with_prelude load image_path prompt callback w :
  generateFromImageStreaming_with load image_path prompt callback w =
  bind (generation_prelude load image_path prompt)
       (fun full_prompt => llm_arrow_generateStreaming full_prompt callback) w.
Proof.
  destruct w as [[l c e cfg] t].
  unfold generateFromImageStreaming_with, generation_prelude, bind, gets, ret,
    throw, expected_prompt.
  destruct (isLoaded _); cbn [negb]; [|reflexivity].
  destruct c as [c|]; cbn [self clip_ctx_ non_null]; [|reflexivity].
  destruct (load image_path _) as [[[|]| |] w1]; cbn [negb]; reflexivity.
Qed.

(** The prelude with the [loadImage] of the source: it never throws on a
    loaded processor; with a vision encoder it empties the slot. *)
Lemma generation_prelude_loadImage image_path prompt w :
  isLoaded (self w) = true ->
  generation_prelude loadImage image_path prompt w =
  (Ret (expected_prompt (non_null (clip_ctx_ (self w))) prompt),
   if non_null (clip_ctx_ (self w))
   then {| self := {| llm_ := llm_ (self w);
                      clip_ctx_ := clip_ctx_ (self w);
                      image_embed_ := None;
                      config_ := config_ (self w) |};
           trace := trace w ++ embed_release (self w) |}
   else w).
Proof.
  intros Hl. unfold generation_prelude. rewrite Hl.
  destruct (clip_ctx_ (self w)) as [c|] eqn:Hc; cbn [non_null]; [|reflexivity].
  rewrite loadImage_encoder by congruence.
  cbn [self clip_ctx_]. rewrite Hc. reflexivity.
Qed.

Lemma generation_prelude_not_loaded load image_path prompt w :
  isLoaded (self w) = false ->
  generation_prelude load image_path prompt w =
  (Throw "Multimodal processor not initialized", w).
Proof. intros Hl. unfold generation_prelude. rewrite Hl. reflexivity. Qed.

(** A loaded processor has an engine object behind [llm_]. *)
Lemma isLoaded_engine (p : MultimodalProcessor) :
  isLoaded p = true <-> exists e, llm_ p = Some e /\ llm_isLoaded e = true.
Proof.
  unfold isLoaded. destruct (llm_ p) as [e|]; split.
  - intros H. exists e. split; [reflexivity | exact H].
  - intros [e' [He' Hl]]. congruence.
  - discriminate.
  - intros [e' [He' _]]. discriminate.
Qed.

(** Without a vision encoder the prelude never looks at the loader. *)
Lemma generation_prelude_no_encoder load image_path prompt w :
  clip_ctx_ (self w) = None ->
  generation_prelude load image_path prompt w =
  if isLoaded (self w) then (Ret prompt, w)
  else (Throw "Multimodal processor not initialized", w).
Proof.
  intros Hc. unfold generation_prelude. rewrite Hc. reflexivity.
Qed.

(** The engine call of the blocking path on a loaded processor. *)
Lemma llm_arrow_generate_trace full_prompt w :
  llm_ (self w) <> None ->
  trace (snd (llm_arrow_generate full_prompt w))
  = (trace w ++ [Ev_llm_generate full_prompt])%list.
Proof.
  unfold llm_arrow_generate, arrow.
  destruct (llm_ (self w)); [reflexivity | congruence].
Qed.

Lemma llm_arrow_generateStreaming_trace full_prompt callback w :
  llm_ (self w) <> None ->
  trace (snd (llm_arrow_generateStreaming full_prompt callback w))
  = (trace w ++ [Ev_llm_generateStreaming full_prompt callback])%list.
Proof.
  unfold llm_arrow_generateStreaming, arrow.
  destruct (llm_ (self w)); [reflexivity | congruence].
Qed.

Lemma isLoaded_llm_not_null (p : MultimodalProcessor) :
  isLoaded p = true -> llm_ p <> None.
Proof. unfold isLoaded. destruct (llm_ p); [discriminate | discriminate]. Qed.

(** Without a vision encoder each generation method is the guard followed
    by the engine call on the raw prompt, whatever the loader. *)
Lemma generateFromImage_with_no_encoder load image_path prompt w :
  clip_ctx_ (self w) = None ->
  generateFromImage_with load image_path prompt w
  = if isLoaded (self w) then llm_arrow_generate prompt w
    else (Throw "Multimodal processor not initialized", w).
Proof.
  intros Hc. rewrite generateFromImage_with_prelude. unfold bind.
  rewrite generation_prelude_no_encoder by exact Hc.
  destruct (isLoaded (self w)); reflexivity.
Qed.

Lemma generateFromImageStreaming_with_no_encoder
      load image_path prompt callback w :
  clip_ctx_ (self w) = None ->
  generateFromImageStreaming_with load image_path prompt callback w
  = if isLoaded (self w) then llm_arrow_generateStreaming prompt callback w
    else (Throw "Multimodal processor not initialized", w).
Proof.
  intros Hc. rewrite generateFromImageStreaming_with_prelude. unfold bind.
  rewrite generation_prelude_no_encoder by exact Hc.
  destruct (isLoaded (self w)); reflexivity.
Qed.

(** A call through [llm_] does not touch the raw pointers. *)
Lemma arrow_clip_ctx {A} ev (m : LLMWrapper -> outcome A * LLMWrapper) w :
  clip_ctx_ (self (snd (arrow ev m w))) = clip_ctx_ (self w).
Proof. unfold arrow. destruct (llm_ (self w)); reflexivity. Qed.

(** One public call on a processor without vision encoder: the encoder
    stays absent, and the trace grows by events of that call only. *)
Lemma exec_effect (c : Call) (w : World) :
  clip_ctx_ (self w) = None ->
  clip_ctx_ (self (exec c w)) = None
  /\ exists evs, trace (exec c w) = (trace w ++ evs)%list
                 /\ Forall (event_of_call c) evs.
Proof.
  intros Hc. destruct c as [config| |path|path prompt|path prompt cb|];
    cbn [exec].
  - rewrite initialize_run. cbn [snd self trace clip_ctx_].
    split; [exact Hc|]. eexists. split; [reflexivity|].
    unfold initialize_diagnostics. rewrite Hc.
    destruct (non_null (llm_ (self w))),
      (fst (llm_initialize (llm_config_of config) make_unique)),
      (empty (clip_model_path config)); cbn [app];
      repeat constructor.
  - rewrite cleanup_run. cbn [snd self trace clip_ctx_].
    split; [reflexivity|]. eexists. split; [reflexivity|].
    unfold embed_release, engine_release.
    destruct (image_embed_ (self w)), (llm_ (self w)); cbn [app];
      repeat constructor.
  - rewrite loadImage_no_encoder by exact Hc. cbn [snd self trace].
    split; [exact Hc|]. eexists. split; [reflexivity|].
    repeat constructor.
  - unfold generateFromImage.
    rewrite generateFromImage_with_no_encoder by exact Hc.
    destruct (isLoaded (self w)) eqn:Hl; cbn [snd].
    + split.
      * unfold llm_arrow_generate. rewrite arrow_clip_ctx. exact Hc.
      * exists [Ev_llm_generate prompt]. split.
        -- apply llm_arrow_generate_trace. apply isLoaded_llm_not_null, Hl.
        -- constructor; [|constructor]. exists path. reflexivity.
    + split; [exact Hc|]. exists []. split; [|constructor].
      rewrite app_nil_r. reflexivity.
  - unfold generateFromImageStreaming.
    rewrite generateFromImageStreaming_with_no_encoder by exact Hc.
    destruct (isLoaded (self w)) eqn:Hl; cbn [snd].
    + split.
      * unfold llm_arrow_generateStreaming. rewrite arrow_clip_ctx. exact Hc.
      * exists [Ev_llm_generateStreaming prompt cb]. split.
        -- apply llm_arrow_generateStreaming_trace.
           apply isLoaded_llm_not_null, Hl.
        -- constructor; [|constructor]. exists path. reflexivity.
    + split; [exact Hc|]. exists []. split; [|constructor].
      rewrite app_nil_r. reflexivity.
  - split; [exact Hc|]. exists []. split; [|constructor].
    rewrite app_nil_r. reflexivity.
Qed.

Lemma event_of_history_snoc_old cs c ev :
  event_of_history cs ev -> event_of_history (cs ++ [c]) ev.
Proof.
  destruct ev; cbn; try tauto.
  - intros [path Hin]. exists path. apply in_or_app. left. exact Hin.
  - intros [path Hin]. exists path. apply in_or_app. left. exact Hin.
Qed.

Lemma event_of_history_snoc_new cs c ev :
  event_of_call c ev -> event_of_history (cs ++ [c]) ev.
Proof.
  destruct ev; cbn; try tauto.
  - intros [path ->]. exists path. apply in_or_app. right. left. reflexivity.
  - intros [path ->]. exists path. apply in_or_app. right. left. reflexivity.
Qed.

(** The invariant of the reachable worlds, by induction on the history. *)
Lemma reachable_invariant config0 cs w :
  reachable config0 cs w ->
  clip_ctx_ (self w) = None /\ Forall (event_of_history cs) (trace w).
Proof.
  induction 1 as [|cs w c Hr [IHc IHt]].
  - split; [reflexivity | constructor].
  - destruct (exec_effect c w IHc) as [Hc [evs [Ht Hevs]]].
    split; [exact Hc|]. rewrite Ht. apply Forall_app. split.
    + eapply Forall_impl; [|exact IHt].
      intros ev. apply event_of_history_snoc_old.
    + eapply Forall_impl; [|exact Hevs].
      intros ev. apply event_of_history_snoc_new.
Qed.

(** ** The claims *)

(** C1, as amended.  When the engine fails to initialise on the translated
    configuration, [initialize] returns [false]; the vision-encoder handle
    and the cached embedding are as they were (absent on a newly
    constructed processor); but the configuration is stored, and [llm_]
    holds the engine object whose initialisation failed.  The trace shows
    the construction, the failed initialisation and the diagnostic. *)
Theorem initialize_failure_state (config : MultimodalConfig) (w : World) :
  fst (llm_initialize (llm_config_of config) make_unique) = false ->
  fst (initialize config w) = Ret false
  /\ config_ (self (snd (initialize config w))) = config
  /\ llm_ (self (snd (initialize config w)))
     = Some (snd (llm_initialize (llm_config_of config) make_unique))
  /\ clip_ctx_ (self (snd (initialize config w))) = clip_ctx_ (self w)
  /\ image_embed_ (self (snd (initialize config w))) = image_embed_ (self w)
  /\ trace (snd (initialize config w))
     = (trace w
        ++ Ev_llm_new
        :: (if non_null (llm_ (self w)) then [Ev_llm_delete] else [])
        ++ [Ev_llm_initialize (llm_config_of config);
            Ev_cerr "Failed to initialize LLM"])%list.
Proof.
  intros Hfail. rewrite initialize_run. rewrite Hfail.
  cbn [fst snd self trace config_ llm_ clip_ctx_ image_embed_
       initialize_diagnostics].
  repeat split; reflexivity.
Qed.

(** C3.  [initialize] returns [true] exactly when the engine's own
    [initialize] succeeds on the translated configuration, which does not
    contain the vision-encoder path; and on a processor that holds no
    encoder handle, success leaves the handle absent and the processor in
    text-only mode, whatever the vision-encoder path. *)
Theorem initialize_true_iff_engine_initialized
        (config : MultimodalConfig) (w : World) :
  clip_ctx_ (self w) = None ->
  (fst (initialize config w) = Ret true
   <-> fst (llm_initialize (llm_config_of config) make_unique) = true)
  /\ (forall vision_path,
        llm_config_of
          {| model_path := model_path config;
             clip_model_path := vision_path;
             n_ctx := n_ctx config; n_gpu_layers := n_gpu_layers config;
             n_batch := n_batch config; n_ubatch := n_ubatch config;
             n_predict := n_predict config;
             temperature := temperature config; top_p := top_p config;
             top_k := top_k config; seed := seed config;
             n_threads := n_threads config |}
        = llm_config_of config)
  /\ (fst (llm_initialize (llm_config_of config) make_unique) = true ->
      clip_ctx_ (self (snd (initialize config w))) = None
      /\ mode (self (snd (initialize config w))) = TextOnly
      /\ llm_ (self (snd (initialize config w)))
         = Some (snd (llm_initialize (llm_config_of config) make_unique))).
Proof.
  intros Hc. rewrite initialize_run.
  cbn [fst snd self llm_ clip_ctx_]. unfold mode. cbn [llm_ clip_ctx_].
  rewrite Hc. split; [|split].
  - split; [intros H; injection H; auto | intros ->; reflexivity].
  - reflexivity.
  - intros _. repeat split; reflexivity.
Qed.

(** C4.  On a loaded processor each generation method makes exactly one
    generation call into the engine, after at most the release of the
    cached embedding, and the prompt of that call is
    ["USER: <image>\n" + p + "\nASSISTANT: "] when [clip_ctx_] is set and
    [p] itself when it is not: the trace records the call with that prompt,
    the engine behind [llm_] is run on that prompt, and what the method
    hands back and the engine it leaves are the engine's own. *)
Theorem full_prompt_by_mode (image_path p : string) (callback : StreamCallback)
        (w : World) :
  isLoaded (self w) = true ->
  let full_prompt :=
    if non_null (clip_ctx_ (self w))
    then "USER: <image>" ++ LF ++ p ++ LF ++ "ASSISTANT: "
    else p in
  let released :=
    if non_null (clip_ctx_ (self w)) then embed_release (self w) else [] in
  trace (snd (generateFromImage image_path p w))
  = (trace w ++ released ++ [Ev_llm_generate full_prompt])%list
  /\ trace (snd (generateFromImageStreaming image_path p callback w))
     = (trace w ++ released
          ++ [Ev_llm_generateStreaming full_prompt callback])%list
  /\ exists e,
      llm_ (self w) = Some e
      /\ fst (generateFromImage image_path p w)
         = fst (llm_generate full_prompt e)
      /\ llm_ (self (snd (generateFromImage image_path p w)))
         = Some (snd (llm_generate full_prompt e))
      /\ fst (generateFromImageStreaming image_path p callback w)
         = fst (llm_generateStreaming full_prompt callback e)
      /\ llm_ (self (snd (generateFromImageStreaming image_path p callback w)))
         = Some (snd (llm_generateStreaming full_prompt callback e)).
Proof.
  intros Hl full_prompt released.
  destruct (proj1 (isLoaded_engine (self w)) Hl) as [e [He _]].
  unfold generateFromImage, generateFromImageStreaming.
  rewrite generateFromImage_with_prelude,
    generateFromImageStreaming_with_prelude.
  unfold bind. rewrite (generation_prelude_loadImage image_path p w Hl).
  subst full_prompt released.
  unfold expected_prompt, llm_arrow_generate, llm_arrow_generateStreaming,
    arrow.
  destruct (clip_ctx_ (self w)) as [c|];
    cbn [non_null self llm_]; rewrite He;
    cbn [fst snd self trace llm_ set_llm]; rewrite <- ?app_assoc;
    (split; [reflexivity|]; split; [reflexivity|]);
    exists e; repeat split.
Qed.

(** C5.  In a world where the processor is not loaded, both generation
    methods throw "Multimodal processor not initialized" and leave the
    world as it was: no call into the engine or the encoder, no output;
    a newly constructed processor and a processor after [cleanup] are
    such worlds.  On a loaded processor that holds a vision encoder, when
    the image load reports failure both methods throw "Failed to load
    image: " followed by the path, in the world the load left: nothing is
    delegated to the engine.  The image load is [load], any loader, among
    them the [loadImage] of the source. *)
Theorem generation_guards (load : string -> M World bool)
        (image_path prompt : string) (callback : StreamCallback) (w : World) :
  (isLoaded (self w) = false ->
   generateFromImage_with load image_path prompt w
   = (Throw "Multimodal processor not initialized", w)
   /\ generateFromImageStreaming_with load image_path prompt callback w
      = (Throw "Multimodal processor not initialized", w))
  /\ (forall config0, isLoaded (self (MultimodalProcessor_new config0)) = false)
  /\ isLoaded (self (snd (cleanup w))) = false
  /\ (forall w1,
        isLoaded (self w) = true ->
        clip_ctx_ (self w) <> None ->
        load image_path w = (Ret false, w1) ->
        generateFromImage_with load image_path prompt w
        = (Throw ("Failed to load image: " ++ image_path), w1)
        /\ generateFromImageStreaming_with load image_path prompt callback w
           = (Throw ("Failed to load image: " ++ image_path), w1)).
Proof.
  split; [|split; [|split]].
  - intros Hl.
    rewrite generateFromImage_with_prelude,
      generateFromImageStreaming_with_prelude.
    unfold bind. rewrite generation_prelude_not_loaded by exact Hl.
    split; reflexivity.
  - reflexivity.
  - rewrite cleanup_run. reflexivity.
  - intros w1 Hl Hc Hload.
    rewrite generateFromImage_with_prelude,
      generateFromImageStreaming_with_prelude.
    unfold bind, generation_prelude. rewrite Hl, Hload.
    destruct (clip_ctx_ (self w)); [|congruence].
    split; reflexivity.
Qed.



(** C8.  Without a vision encoder, [loadImage] returns [false] for every
    path, writes the one diagnostic "Vision encoder not initialized", and
    leaves the processor as it was: the cached embedding, the encoder
    handle, the engine handle and the configuration. *)
Theorem loadImage_without_encoder_fails_unchanged (image_path : string)
        (w : World) :
  clip_ctx_ (self w) = None ->
  fst (loadImage image_path w) = Ret false
  /\ self (snd (loadImage image_path w)) = self w
  /\ trace (snd (loadImage image_path w))
     = (trace w ++ [Ev_cerr "Vision encoder not initialized"])%list.
Proof.
  intros Hc. rewrite (loadImage_no_encoder image_path w Hc).
  repeat split; reflexivity.
Qed.

(** C9.  After any sequence of public calls on a newly constructed
    processor the vision-encoder handle is null, so the processor is never
    in multimodal mode; [loadImage] returns [false]; each generation
    method is the loaded-guard followed by the engine call on the raw user
    prompt, whatever the image loader would answer, so the image-load
    failure is never raised; every generation call in the trace carries
    the raw prompt of a generation call of the history; and the trace
    holds no encoder load.  In any world at all, [initialize] leaves the
    encoder handle as it was and [cleanup] nulls it. *)
Theorem vision_encoder_never_loaded
        (config0 : MultimodalConfig) (cs : list Call) (w : World) :
  reachable config0 cs w ->
  clip_ctx_ (self w) = None
  /\ mode (self w) <> Multimodal
  /\ (forall image_path, fst (loadImage image_path w) = Ret false)
  /\ (forall load image_path prompt callback,
        generateFromImage_with load image_path prompt w
        = (if isLoaded (self w) then llm_arrow_generate prompt w
           else (Throw "Multimodal processor not initialized", w))
        /\ generateFromImageStreaming_with load image_path prompt callback w
           = (if isLoaded (self w)
              then llm_arrow_generateStreaming prompt callback w
              else (Throw "Multimodal processor not initialized", w)))
  /\ (forall full_prompt,
        In (Ev_llm_generate full_prompt) (trace w) ->
        exists image_path,
          In (Call_generateFromImage image_path full_prompt) cs)
  /\ (forall full_prompt callback,
        In (Ev_llm_generateStreaming full_prompt callback) (trace w) ->
        exists image_path,
          In (Call_generateFromImageStreaming image_path full_prompt callback)
             cs)
  /\ (forall path, ~ In (Ev_clip_model_load path) (trace w))
  /\ (forall config w',
        clip_ctx_ (self (snd (initialize config w'))) = clip_ctx_ (self w'))
  /\ (forall w', clip_ctx_ (self (snd (cleanup w'))) = None).
Proof.
  intros Hr. destruct (reachable_invariant Hr) as [Hc Ht].
  rewrite Forall_forall in Ht.
  split; [exact Hc|].
  split; [|split; [|split; [|split; [|split; [|split; [|split]]]]]].
  8: { intros w'. rewrite cleanup_run. reflexivity. }
  7: { intros config w'. rewrite initialize_run. reflexivity. }
  - unfold mode. rewrite Hc. destruct (llm_ (self w)); discriminate.
  - intros image_path. rewrite loadImage_no_encoder by exact Hc. reflexivity.
  - intros load image_path prompt callback. split.
    + apply generateFromImage_with_no_encoder, Hc.
    + apply generateFromImageStreaming_with_no_encoder, Hc.
  - intros full_prompt Hin. exact (Ht _ Hin).
  - intros full_prompt callback Hin. exact (Ht _ Hin).
  - intros path Hin. exact (Ht _ Hin).
Qed.

(** C10.  The two generation methods are the same prelude (the loaded
    guard, the image load when a vision encoder is present, the full
    prompt) followed by one engine call on the prompt the prelude built:
    the blocking call in one, the streaming call in the other.  Up to
    that call they return the same prompt in the same world, or throw the
    same exception in the same world. *)
Theorem generation_methods_share_prelude
        (image_path prompt : string) (callback : StreamCallback) (w : World) :
  generateFromImage image_path prompt w
  = bind (generation_prelude loadImage image_path prompt)
         llm_arrow_generate w
  /\ generateFromImageStreaming image_path prompt callback w
     = bind (generation_prelude loadImage image_path prompt)
            (fun full_prompt =>
               llm_arrow_generateStreaming full_prompt callback) w.
Proof.
  split.
  - apply generateFromImage_with_prelude.
  - apply generateFromImageStreaming_with_prelude.
Qed.

(** ** Beyond the claims: every world *)

(** [loadImage] in any world. *)
Lemma loadImage_run (image_path : string) (w : World) :
  loadImage image_path w =
  (Ret (non_null (clip_ctx_ (self w))),
   if non_null (clip_ctx_ (self w))
   then {| self := {| llm_ := llm_ (self w);
                      clip_ctx_ := clip_ctx_ (self w);
                      image_embed_ := None;
                      config_ := config_ (self w) |};
           trace := trace w ++ embed_release (self w) |}
   else {| self := self w;
           trace := trace w ++ [Ev_cerr "Vision encoder not initialized"] |}).
Proof.
  destruct (clip_ctx_ (self w)) as [c|] eqn:Hc; cbn [non_null].
  - rewrite loadImage_encoder by congruence. rewrite Hc. reflexivity.
  - apply loadImage_no_encoder, Hc.
Qed.

Lemma before_engine_call_llm (w : World) :
  llm_ (self (before_engine_call w)) = llm_ (self w).
Proof.
  unfold before_engine_call.
  destruct (non_null (clip_ctx_ (self w))); reflexivity.
Qed.

(** A call through a non-null [llm_]. *)
Lemma arrow_run {A} ev (m : LLMWrapper -> outcome A * LLMWrapper) w e :
  llm_ (self w) = Some e ->
  arrow ev m w =
  (fst (m e),
   {| self := {| llm_ := Some (snd (m e));
                 clip_ctx_ := clip_ctx_ (self w);
                 image_embed_ := image_embed_ (self w);
                 config_ := config_ (self w) |};
      trace := trace w ++ [ev] |}).
Proof. intros He. unfold arrow. rewrite He. reflexivity. Qed.

(** The two generation methods in any world. *)
Lemma generateFromImage_run image_path prompt w :
  generateFromImage image_path prompt w =
  if isLoaded (self w)
  then llm_arrow_generate
         (expected_prompt (non_null (clip_ctx_ (self w))) prompt)
         (before_engine_call w)
  else (Throw "Multimodal processor not initialized", w).
Proof.
  unfold generateFromImage. rewrite generateFromImage_with_prelude.
  unfold bind. destruct (isLoaded (self w)) eqn:Hl.
  - rewrite generation_prelude_loadImage by exact Hl. reflexivity.
  - rewrite generation_prelude_not_loaded by exact Hl. reflexivity.
Qed.

Lemma generateFromImageStreaming_run image_path prompt callback w :
  generateFromImageStreaming image_path prompt callback w =
  if isLoaded (self w)
  then llm_arrow_generateStreaming
         (expected_prompt (non_null (clip_ctx_ (self w))) prompt) callback
         (before_engine_call w)
  else (Throw "Multimodal processor not initialized", w).
Proof.
  unfold generateFromImageStreaming.
  rewrite generateFromImageStreaming_with_prelude.
  unfold bind. destruct (isLoaded (self w)) eqn:Hl.
  - rewrite generation_prelude_loadImage by exact Hl. reflexivity.
  - rewrite generation_prelude_not_loaded by exact Hl. reflexivity.
Qed.

(** X1.  No public call dereferences a null [llm_], in any world, reachable
    or not: [initialize], [cleanup] and [loadImage] always return, without
    exception; a generation method is undefined only if the engine's own
    generation is. *)
Theorem no_null_dereference (config : MultimodalConfig)
        (image_path prompt : string) (callback : StreamCallback) (w : World) :
  (forall p e, fst (llm_generate p e) <> Undefined) ->
  (forall p cb e, fst (llm_generateStreaming p cb e) <> Undefined) ->
  (exists ok, fst (initialize config w) = Ret ok)
  /\ fst (cleanup w) = Ret tt
  /\ (exists ok, fst (loadImage image_path w) = Ret ok)
  /\ fst (generateFromImage image_path prompt w) <> Undefined
  /\ fst (generateFromImageStreaming image_path prompt callback w) <> Undefined.
Proof.
  intros Hgen Hstream.
  split; [rewrite initialize_run; eexists; reflexivity|].
  split; [rewrite cleanup_run; reflexivity|].
  split; [rewrite loadImage_run; eexists; reflexivity|].
  rewrite generateFromImage_run, generateFromImageStreaming_run.
  destruct (isLoaded (self w)) eqn:Hl; [|split; discriminate].
  apply isLoaded_engine in Hl. destruct Hl as [e [He _]].
  rewrite <- before_engine_call_llm in He.
  unfold llm_arrow_generate, llm_arrow_generateStreaming.
  rewrite !(arrow_run _ _ _ He). cbn [fst].
  split; [apply Hgen | apply Hstream].
Qed.

(** X2.  On a loaded processor a generation method hands back what the
    engine hands back, result or exception, for the full prompt of the
    mode; the engine object is the one the call left behind; the stored
    configuration and the encoder handle are untouched, and the embedding
    slot is emptied when a vision encoder is present and untouched
    otherwise. *)
Theorem generation_returns_engine_outcome (image_path prompt : string)
        (callback : StreamCallback) (w : World) (e : LLMWrapper) :
  llm_ (self w) = Some e ->
  llm_isLoaded e = true ->
  let full_prompt := expected_prompt (non_null (clip_ctx_ (self w))) prompt in
  let slot := if non_null (clip_ctx_ (self w)) then None
              else image_embed_ (self w) in
  fst (generateFromImage image_path prompt w) = fst (llm_generate full_prompt e)
  /\ self (snd (generateFromImage image_path prompt w))
     = {| llm_ := Some (snd (llm_generate full_prompt e));
          clip_ctx_ := clip_ctx_ (self w);
          image_embed_ := slot;
          config_ := config_ (self w) |}
  /\ fst (generateFromImageStreaming image_path prompt callback w)
     = fst (llm_generateStreaming full_prompt callback e)
  /\ self (snd (generateFromImageStreaming image_path prompt callback w))
     = {| llm_ := Some (snd (llm_generateStreaming full_prompt callback e));
          clip_ctx_ := clip_ctx_ (self w);
          image_embed_ := slot;
          config_ := config_ (self w) |}.
Proof.
  intros He Hl full_prompt slot.
  assert (Hloaded : isLoaded (self w) = true)
    by (apply isLoaded_engine; exists e; split; assumption).
  rewrite generateFromImage_run, generateFromImageStreaming_run, Hloaded.
  pose proof He as He'. rewrite <- before_engine_call_llm in He'.
  unfold llm_arrow_generate, llm_arrow_generateStreaming.
  rewrite !(arrow_run _ _ _ He'). cbn [fst snd self].
  subst full_prompt slot. unfold before_engine_call.
  destruct (non_null (clip_ctx_ (self w)));
    cbn [self clip_ctx_ image_embed_ config_]; repeat split.
Qed.

(** X3.  The image path is never used: [loadImage] does the same for every
    path, and so does each generation method, in every world. *)
Theorem image_path_is_ignored (path1 path2 prompt : string)
        (callback : StreamCallback) (w : World) :
  loadImage path1 w = loadImage path2 w
  /\ generateFromImage path1 prompt w = generateFromImage path2 prompt w
  /\ generateFromImageStreaming path1 prompt callback w
     = generateFromImageStreaming path2 prompt callback w.
Proof.
  rewrite !loadImage_run, !generateFromImage_run,
    !generateFromImageStreaming_run.
  repeat split.
Qed.

(** X4.  [initialize] on a processor that already holds an engine replaces
    it: the old engine object is destroyed without a call of its
    [cleanup], a new one is constructed and initialised, and the members
    and the return value are those of the second [initialize] alone. *)
Theorem initialize_replaces_engine (config1 config2 : MultimodalConfig)
        (w : World) :
  let w1 := snd (initialize config1 w) in
  fst (initialize config2 w1) = fst (initialize config2 w)
  /\ self (snd (initialize config2 w1)) = self (snd (initialize config2 w))
  /\ trace (snd (initialize config2 w1))
     = (trace w1
        ++ Ev_llm_new :: Ev_llm_delete
        :: Ev_llm_initialize (llm_config_of config2)
        :: initialize_diagnostics
             (fst (llm_initialize (llm_config_of config2) make_unique))
             config2 (clip_ctx_ (self w)))%list.
Proof.
  cbn zeta. rewrite (initialize_run config2 (snd (initialize config1 w))).
  rewrite (initialize_run config2 w). rewrite (initialize_run config1 w).
  cbn [fst snd self trace llm_ clip_ctx_ image_embed_ config_ non_null app].
  repeat split.
Qed.

(** X5.  [cleanup] followed by [initialize] is a full reset: the members
    and the return value depend on the configuration only, not on the world
    before, and the engine is constructed without any destruction. *)
Theorem cleanup_then_initialize_resets (config : MultimodalConfig) (w : World) :
  let w1 := snd (cleanup w) in
  fst (initialize config w1)
  = Ret (fst (llm_initialize (llm_config_of config) make_unique))
  /\ self (snd (initialize config w1))
     = {| llm_ := Some (snd (llm_initialize (llm_config_of config)
                                            make_unique));
          clip_ctx_ := None;
          image_embed_ := None;
          config_ := config |}
  /\ trace (snd (initialize config w1))
     = (trace w1
        ++ Ev_llm_new
        :: Ev_llm_initialize (llm_config_of config)
        :: initialize_diagnostics
             (fst (llm_initialize (llm_config_of config) make_unique))
             config None)%list.
Proof.
  cbn zeta. rewrite (initialize_run config (snd (cleanup w))).
  rewrite (cleanup_run w).
  cbn [fst snd self trace llm_ clip_ctx_ image_embed_ config_ non_null app].
  repeat split.
Qed.

(** ** Beyond the claims: reachable worlds *)

Lemma count_events_app f (evs1 evs2 : list Event) :
  count_events f (evs1 ++ evs2)
  = (count_events f evs1 + count_events f evs2)%nat.
Proof. unfold count_events. rewrite filter_app, length_app. reflexivity. Qed.

Lemma before_engine_call_frame (w : World) :
  clip_ctx_ (self (before_engine_call w)) = clip_ctx_ (self w)
  /\ config_ (self (before_engine_call w)) = config_ (self w)
  /\ exists evs, trace (before_engine_call w) = (trace w ++ evs)%list
                 /\ evs = (if non_null (clip_ctx_ (self w))
                           then embed_release (self w) else []).
Proof.
  unfold before_engine_call.
  destruct (non_null (clip_ctx_ (self w))); cbn [self trace clip_ctx_ config_];
    repeat split; eexists; split; try reflexivity.
  rewrite app_nil_r. reflexivity.
Qed.

(** What a public call does to the engine handle and to the stored
    configuration, and which events it adds, in any world. *)
Lemma exec_frame (c : Call) (w : World) :
  exists evs,
    trace (exec c w) = (trace w ++ evs)%list
    /\ (count_events is_llm_new evs + engines_held (self w)
        = count_events is_llm_delete evs + engines_held (self (exec c w)))%nat
    /\ config_ (self (exec c w))
       = match c with
         | Call_initialize config => config
         | _ => config_ (self w)
         end.
Proof.
  destruct c as [config| |path|path prompt|path prompt cb|]; cbn [exec].
  - rewrite initialize_run. cbn [snd self trace config_ llm_].
    eexists. split; [reflexivity|]. split; [|reflexivity].
    unfold engines_held, initialize_diagnostics, count_events.
    destruct (llm_ (self w)),
      (fst (llm_initialize (llm_config_of config) make_unique)),
      (empty (clip_model_path config)), (clip_ctx_ (self w)); reflexivity.
  - rewrite cleanup_run. cbn [snd self trace config_ llm_].
    eexists. split; [reflexivity|]. split; [|reflexivity].
    unfold engines_held, embed_release, engine_release, count_events.
    destruct (llm_ (self w)), (image_embed_ (self w)); reflexivity.
  - rewrite loadImage_run. cbn [snd].
    destruct (non_null (clip_ctx_ (self w))); cbn [self trace config_ llm_];
      (eexists; split; [reflexivity|]; split; [|reflexivity]).
    + unfold embed_release, engines_held, count_events. cbn [llm_].
      destruct (image_embed_ (self w)); reflexivity.
    + reflexivity.
  - rewrite generateFromImage_run.
    destruct (isLoaded (self w)) eqn:Hl; cbn [snd].
    + apply isLoaded_engine in Hl. destruct Hl as [e [He _]].
      pose proof He as He'. rewrite <- before_engine_call_llm in He'.
      unfold llm_arrow_generate. rewrite (arrow_run _ _ _ He').
      cbn [snd self trace config_ llm_].
      destruct (before_engine_call_frame w) as [_ [Hcfg [evs [Ht Hevs]]]].
      rewrite Ht, Hcfg, <- app_assoc. eexists. split; [reflexivity|].
      split; [|reflexivity].
      rewrite !count_events_app. unfold engines_held. rewrite He.
      cbn [non_null llm_]. subst evs. unfold embed_release, count_events.
      destruct (non_null (clip_ctx_ (self w))), (image_embed_ (self w));
        reflexivity.
    + exists []. rewrite app_nil_r. repeat split.
  - rewrite generateFromImageStreaming_run.
    destruct (isLoaded (self w)) eqn:Hl; cbn [snd].
    + apply isLoaded_engine in Hl. destruct Hl as [e [He _]].
      pose proof He as He'. rewrite <- before_engine_call_llm in He'.
      unfold llm_arrow_generateStreaming. rewrite (arrow_run _ _ _ He').
      cbn [snd self trace config_ llm_].
      destruct (before_engine_call_frame w) as [_ [Hcfg [evs [Ht Hevs]]]].
      rewrite Ht, Hcfg, <- app_assoc. eexists. split; [reflexivity|].
      split; [|reflexivity].
      rewrite !count_events_app. unfold engines_held. rewrite He.
      cbn [non_null llm_]. subst evs. unfold embed_release, count_events.
      destruct (non_null (clip_ctx_ (self w))), (image_embed_ (self w));
        reflexivity.
    + exists []. rewrite app_nil_r. repeat split.
  - exists []. rewrite app_nil_r. repeat split.
Qed.

(** X6.  Engine objects are neither leaked nor destroyed twice: after any
    sequence of public calls, the engines constructed are the engines
    destroyed plus the one the processor holds, if it holds one; after the
    destructor every engine constructed has been destroyed. *)
Theorem engine_objects_balanced (config0 : MultimodalConfig) (cs : list Call)
        (w : World) :
  reachable config0 cs w ->
  count_events is_llm_new (trace w)
  = (count_events is_llm_delete (trace w) + engines_held (self w))%nat
  /\ count_events is_llm_new (trace (snd (MultimodalProcessor_delete w)))
     = count_events is_llm_delete (trace (snd (MultimodalProcessor_delete w))).
Proof.
  intros Hr.
  assert (Hbal : count_events is_llm_new (trace w)
                 = (count_events is_llm_delete (trace w)
                    + engines_held (self w))%nat).
  { induction Hr as [|cs w c Hr IH]; [reflexivity|].
    destruct (exec_frame c w) as [evs [Ht [Hcount _]]].
    rewrite Ht, !count_events_app. lia. }
  split; [exact Hbal|].
  destruct (exec_frame Call_cleanup w) as [evs [Ht [Hcount _]]].
  cbn [exec] in Ht, Hcount. unfold MultimodalProcessor_delete.
  rewrite Ht, !count_events_app.
  rewrite cleanup_run in Hcount. cbn [snd self] in Hcount.
  unfold engines_held at 2 in Hcount. cbn [llm_ non_null] in Hcount. lia.
Qed.

(** X7.  After any sequence of public calls, [config_] holds the
    configuration of the latest [initialize], whether that call succeeded
    or failed, and the constructor's default when there was none: no other
    call writes it. *)
Theorem config_is_last_initialize (config0 : MultimodalConfig) (cs : list Call)
        (w : World) :
  reachable config0 cs w ->
  config_ (self w) = last_config config0 cs.
Proof.
  induction 1 as [|cs w c Hr IH]; [reflexivity|].
  destruct (exec_frame c w) as [evs [_ [_ Hcfg]]].
  unfold last_config. rewrite fold_left_app. cbn [fold_left].
  fold (last_config config0 cs). rewrite Hcfg, IH.
  destruct c; reflexivity.
Qed.

(** One public call on a processor without encoder and with an empty slot:
    the slot stays empty, and no added event needs an encoder. *)
Lemma exec_slot_empty (c : Call) (w : World) :
  clip_ctx_ (self w) = None ->
  image_embed_ (self w) = None ->
  image_embed_ (self (exec c w)) = None
  /\ exists evs, trace (exec c w) = (trace w ++ evs)%list
                 /\ Forall (fun ev => ~ needs_encoder ev) evs.
Proof.
  intros Hc Hs. destruct c as [config| |path|path prompt|path prompt cb|];
    cbn [exec].
  - rewrite initialize_run. cbn [snd self trace image_embed_].
    split; [exact Hs|]. eexists. split; [reflexivity|].
    unfold initialize_diagnostics. rewrite Hc.
    destruct (non_null (llm_ (self w))),
      (fst (llm_initialize (llm_config_of config) make_unique)),
      (empty (clip_model_path config)); cbn [app];
      repeat constructor; cbn; try tauto; discriminate.
  - rewrite cleanup_run. cbn [snd self trace image_embed_].
    split; [reflexivity|]. eexists. split; [reflexivity|].
    unfold embed_release, engine_release. rewrite Hs.
    destruct (llm_ (self w)); cbn [app]; repeat constructor; cbn; tauto.
  - rewrite loadImage_no_encoder by exact Hc. cbn [snd self trace].
    split; [exact Hs|]. eexists. split; [reflexivity|].
    repeat constructor; cbn; tauto.
  - unfold generateFromImage.
    rewrite generateFromImage_with_no_encoder by exact Hc.
    destruct (isLoaded (self w)) eqn:Hl; cbn [snd].
    + apply isLoaded_engine in Hl. destruct Hl as [e [He _]].
      unfold llm_arrow_generate. rewrite (arrow_run _ _ _ He).
      cbn [snd self trace image_embed_].
      split; [exact Hs|]. eexists. split; [reflexivity|].
      repeat constructor; cbn; tauto.
    + split; [exact Hs|]. exists []. rewrite app_nil_r.
      split; [reflexivity | constructor].
  - unfold generateFromImageStreaming.
    rewrite generateFromImageStreaming_with_no_encoder by exact Hc.
    destruct (isLoaded (self w)) eqn:Hl; cbn [snd].
    + apply isLoaded_engine in Hl. destruct Hl as [e [He _]].
      unfold llm_arrow_generateStreaming. rewrite (arrow_run _ _ _ He).
      cbn [snd self trace image_embed_].
      split; [exact Hs|]. eexists. split; [reflexivity|].
      repeat constructor; cbn; tauto.
    + split; [exact Hs|]. exists []. rewrite app_nil_r.
      split; [reflexivity | constructor].
  - split; [exact Hs|]. exists []. rewrite app_nil_r.
    split; [reflexivity | constructor].
Qed.

(** X8.  After any sequence of public calls the embedding slot is empty,
    [llava_image_embed_free] has never been called, and [initialize] has
    never printed "Vision encoder loaded successfully!", whatever vision
    path the configurations carried. *)
Theorem embedding_slot_never_filled (config0 : MultimodalConfig)
        (cs : list Call) (w : World) :
  reachable config0 cs w ->
  image_embed_ (self w) = None
  /\ (forall embed, ~ In (Ev_llava_image_embed_free embed) (trace w))
  /\ ~ In (Ev_cout "Vision encoder loaded successfully!") (trace w).
Proof.
  intros Hr.
  assert (Hinv : image_embed_ (self w) = None
                 /\ Forall (fun ev => ~ needs_encoder ev) (trace w)).
  { induction Hr as [|cs w c Hr [IHs IHt]].
    - split; [reflexivity | constructor].
    - destruct (reachable_invariant Hr) as [Hc _].
      destruct (exec_slot_empty c w Hc IHs) as [Hs [evs [Ht Hevs]]].
      split; [exact Hs|]. rewrite Ht. apply Forall_app. split; assumption. }
  destruct Hinv as [Hs Ht]. rewrite Forall_forall in Ht.
  split; [exact Hs|]. split.
  - intros embed Hin. exact (Ht _ Hin I).
  - intros Hin. exact (Ht _ Hin eq_refl).
Qed.

Lemma engine_protocol_app (evs1 evs2 : list Event) (alive : nat) :
  engine_protocol alive (evs1 ++ evs2)
  = match engine_protocol alive evs1 with
    | Some n => engine_protocol n evs2
    | None => None
    end.
Proof.
  revert alive. induction evs1 as [|ev evs1 IH]; intros alive; [reflexivity|].
  destruct ev, alive; cbn [app engine_protocol]; auto.
Qed.

(** The events of one public call respect the engine protocol, from the
    engines the processor holds to the engines it holds afterwards. *)
Lemma exec_protocol (c : Call) (w : World) :
  exists evs,
    trace (exec c w) = (trace w ++ evs)%list
    /\ engine_protocol (engines_held (self w)) evs
       = Some (engines_held (self (exec c w))).
Proof.
  destruct c as [config| |path|path prompt|path prompt cb|]; cbn [exec].
  - rewrite initialize_run. cbn [snd self trace llm_].
    eexists. split; [reflexivity|].
    unfold engines_held, initialize_diagnostics.
    destruct (llm_ (self w)),
      (fst (llm_initialize (llm_config_of config) make_unique)),
      (empty (clip_model_path config)), (clip_ctx_ (self w)); reflexivity.
  - rewrite cleanup_run. cbn [snd self trace llm_].
    eexists. split; [reflexivity|].
    unfold engines_held, embed_release, engine_release.
    destruct (llm_ (self w)), (image_embed_ (self w)); reflexivity.
  - rewrite loadImage_run. cbn [snd].
    destruct (non_null (clip_ctx_ (self w))); cbn [self trace llm_];
      (eexists; split; [reflexivity|]).
    + unfold embed_release, engines_held. cbn [llm_].
      destruct (image_embed_ (self w)); reflexivity.
    + reflexivity.
  - rewrite generateFromImage_run.
    destruct (isLoaded (self w)) eqn:Hl; cbn [snd].
    + apply isLoaded_engine in Hl. destruct Hl as [e [He _]].
      pose proof He as He'. rewrite <- before_engine_call_llm in He'.
      unfold llm_arrow_generate. rewrite (arrow_run _ _ _ He').
      cbn [snd self trace llm_].
      destruct (before_engine_call_frame w) as [_ [_ [evs [Ht Hevs]]]].
      rewrite Ht, <- app_assoc. eexists. split; [reflexivity|].
      unfold engines_held. rewrite He. cbn [non_null llm_]. subst evs.
      unfold embed_release.
      destruct (non_null (clip_ctx_ (self w))), (image_embed_ (self w));
        reflexivity.
    + exists []. rewrite app_nil_r. split; reflexivity.
  - rewrite generateFromImageStreaming_run.
    destruct (isLoaded (self w)) eqn:Hl; cbn [snd].
    + apply isLoaded_engine in Hl. destruct Hl as [e [He _]].
      pose proof He as He'. rewrite <- before_engine_call_llm in He'.
      unfold llm_arrow_generateStreaming. rewrite (arrow_run _ _ _ He').
      cbn [snd self trace llm_].
      destruct (before_engine_call_frame w) as [_ [_ [evs [Ht Hevs]]]].
      rewrite Ht, <- app_assoc. eexists. split; [reflexivity|].
      unfold engines_held. rewrite He. cbn [non_null llm_]. subst evs.
      unfold embed_release.
      destruct (non_null (clip_ctx_ (self w))), (image_embed_ (self w));
        reflexivity.
    + exists []. rewrite app_nil_r. split; reflexivity.
  - exists []. rewrite app_nil_r. split; reflexivity.
Qed.

(** X9.  The engine is used only while it exists: read from the start, the
    trace of any sequence of public calls never destroys an engine that
    does not exist and never calls [initialize], [cleanup], [generate] or
    [generateStreaming] while no engine object is alive; the engines alive
    at its end are the one the processor holds, or none. *)
Theorem engine_used_only_while_alive (config0 : MultimodalConfig)
        (cs : list Call) (w : World) :
  reachable config0 cs w ->
  engine_protocol 0 (trace w) = Some (engines_held (self w)).
Proof.
  induction 1 as [|cs w c Hr IH]; [reflexivity|].
  destruct (exec_protocol c w) as [evs [Ht Hevs]].
  rewrite Ht, engine_protocol_app, IH. exact Hevs.
Qed.

(** X10.  After an [initialize] that failed, on an engine that honours its
    contract, both generation methods throw "Multimodal processor not
    initialized" and change nothing, although [llm_] is not null. *)
Theorem generation_after_failed_initialize
        {C : InferenceEngineContract E} (config : MultimodalConfig)
        (image_path prompt : string) (callback : StreamCallback) (w : World) :
  fst (llm_initialize (llm_config_of config) make_unique) = false ->
  let w1 := snd (initialize config w) in
  llm_ (self w1) <> None
  /\ generateFromImage image_path prompt w1
     = (Throw "Multimodal processor not initialized", w1)
  /\ generateFromImageStreaming image_path prompt callback w1
     = (Throw "Multimodal processor not initialized", w1).
Proof.
  intros Hfail w1.
  assert (Hl : isLoaded (self w1) = false).
  { subst w1. rewrite initialize_run. cbn [snd self]. unfold isLoaded.
    cbn [llm_]. apply failed_initialize_not_loaded. exact Hfail. }
  rewrite generateFromImage_run, generateFromImageStreaming_run, Hl.
  split; [|split; reflexivity].
  subst w1. rewrite initialize_run. discriminate.
Qed.

(** Running a history from the constructor reaches its final world. *)
Lemma reachable_fold_left (config0 : MultimodalConfig) (cs : list Call) :
  reachable config0 cs
            (fold_left (fun w c => exec c w) cs (MultimodalProcessor_new config0)).
Proof.
  induction cs as [|c cs IH] using rev_ind; [apply reachable_new|].
  rewrite fold_left_app. cbn [fold_left]. apply reachable_call, IH.
Qed.

End Properties.

(** * The processor over the engine of the specification *)

Section OnSpecEngine.

Context {NT : Native}.
Variable loadable : string -> bool.
Variable generate : string -> option string -> outcome string.
Variable generateStreaming :
  string -> StreamCallback -> option string -> outcome unit.

(** C7.  Over the engine of the specification: [isLoaded] is true exactly
    when [llm_] holds an engine object and that object reports loaded; and
    for every configuration whose language-model path is not loadable,
    whatever its vision-model path and whatever the processor went through
    before, [initialize] returns [false] and [isLoaded] is false
    afterwards, although [llm_] then holds an engine object. *)
Theorem isLoaded_false_after_failed_initialize
        (config : MultimodalConfig)
        (w : World (E := spec_engine loadable generate generateStreaming)) :
  loadable (model_path config) = false ->
  (forall p : MultimodalProcessor
                (E := spec_engine loadable generate generateStreaming),
      isLoaded p = true
      <-> exists e, llm_ p = Some e /\ llm_isLoaded e = true)
  /\ fst (initialize config w) = Ret false
  /\ llm_ (self (snd (initialize config w))) = Some None
  /\ isLoaded (self (snd (initialize config w))) = false.
Proof.
  intros Hbad. split; [intros p; apply isLoaded_engine|].
  rewrite initialize_run. cbn [fst snd self]. unfold isLoaded. cbn [llm_].
  cbn. rewrite Hbad. repeat split.
Qed.

End OnSpecEngine.

(** * The claims on the test double *)

Section OnTestDouble.

Import TestDouble.

(** The test double honours the engine contract. *)
#[local] Instance engine_contract : InferenceEngineContract engine.
Proof.
  constructor. intros cfg e. cbn.
  destruct (String.eqb (llm_model_path cfg) "model.gguf"); cbn;
    [discriminate | reflexivity].
Qed.

(** The session on the test double, as the outside sees it: the encoder
    path is announced, the encoder is reported absent, and the engine
    receives the raw prompt. *)
Example session_trace :
  trace session_world
  = [Ev_llm_new;
     Ev_llm_initialize (llm_config_of good_config);
     Ev_cout "Loading vision encoder from: mmproj.gguf";
     Ev_cerr "Note: Vision encoder not loaded. Text-only mode.";
     Ev_llm_generate "Describe this";
     Ev_llm_cleanup;
     Ev_llm_delete].
Proof. reflexivity. Qed.

(** C1 as stated fails: after a failed [initialize] on a newly
    constructed processor the engine handle is set and the configuration
    is stored. *)
Lemma initialize_failure_keeps_partial_state :
  fst (llm_initialize (llm_config_of bad_config) make_unique) = false
  /\ fst (initialize bad_config fresh) = Ret false
  /\ llm_ (self (snd (initialize bad_config fresh))) = Some false
  /\ config_ (self (snd (initialize bad_config fresh))) = bad_config
  /\ ~ fully_uninitialized config0 (self (snd (initialize bad_config fresh))).
Proof.
  repeat split.
  intros [Hllm _]. vm_compute in Hllm. discriminate Hllm.
Qed.

(** C1, amended, on the unloadable configuration. *)
Lemma initialize_failure_state_witness :
  fst (llm_initialize (llm_config_of bad_config) make_unique) = false
  /\ fst (initialize bad_config fresh) = Ret false.
Proof.
  split; [reflexivity|].
  exact (proj1 (initialize_failure_state bad_config fresh eq_refl)).
Defined.

(** C3 on a newly constructed processor. *)
Lemma initialize_true_iff_engine_initialized_witness :
  clip_ctx_ (self fresh) = None
  /\ (fst (initialize good_config fresh) = Ret true
      <-> fst (llm_initialize (llm_config_of good_config) make_unique) = true).
Proof.
  split; [reflexivity|].
  exact (proj1 (initialize_true_iff_engine_initialized good_config fresh
                  eq_refl)).
Defined.

(** C4 on the prompt of testable property 5: the trace, and the echo of
    the engine. *)
Lemma full_prompt_by_mode_witness :
  isLoaded (self multimodal_world) = true
  /\ trace (snd (generateFromImage "room.png" "Describe this" multimodal_world))
     = [Ev_llava_image_embed_free 3%nat;
        Ev_llm_generate
          ("USER: <image>" ++ LF ++ "Describe this" ++ LF ++ "ASSISTANT: ")]
  /\ fst (generateFromImage "room.png" "Describe this" multimodal_world)
     = Ret ("echo: USER: <image>" ++ LF ++ "Describe this" ++ LF
              ++ "ASSISTANT: ").
Proof.
  split; [reflexivity|].
  pose proof (full_prompt_by_mode "room.png" "Describe this" 0%nat
                multimodal_world eq_refl) as H.
  split; [exact (proj1 H)|].
  destruct (proj2 (proj2 H)) as [e [He [Hout _]]].
  injection He as <-. exact Hout.
Defined.

(** C5: the guard on a newly constructed processor, the image-load branch
    under a loader that fails. *)
Lemma generation_guards_witness :
  isLoaded (self fresh) = false
  /\ generateFromImage "room.png" "Describe this" fresh
     = (Throw "Multimodal processor not initialized", fresh)
  /\ isLoaded (self multimodal_world) = true
  /\ clip_ctx_ (self multimodal_world) <> None
  /\ failing_load "room.png" multimodal_world = (Ret false, multimodal_world)
  /\ generateFromImage_with failing_load "room.png" "Describe this"
                            multimodal_world
     = (Throw "Failed to load image: room.png", multimodal_world).
Proof.
  split; [reflexivity|]. split.
  - exact (proj1 (proj1 (generation_guards loadImage "room.png"
                           "Describe this" 0%nat fresh) eq_refl)).
  - split; [reflexivity|]. split; [discriminate|]. split; [reflexivity|].
    assert (Hc : clip_ctx_ (self multimodal_world) <> None) by discriminate.
    exact (proj1 (proj2 (proj2 (proj2
             (generation_guards failing_load "room.png" "Describe this"
                0%nat multimodal_world)))
             multimodal_world eq_refl Hc eq_refl)).
Defined.


(** C7 on the unloadable configuration, with a vision-model path. *)
Lemma isLoaded_false_after_failed_initialize_witness :
  String.eqb (model_path bad_config) "model.gguf" = false
  /\ fst (initialize bad_config spec_fresh) = Ret false
  /\ isLoaded (self (snd (initialize bad_config spec_fresh))) = false.
Proof.
  split; [reflexivity|].
  pose proof (@isLoaded_false_after_failed_initialize native
                (fun path => String.eqb path "model.gguf")
                (fun p _ => Ret ("echo: " ++ p))
                (fun _ _ _ => Ret tt)
                bad_config spec_fresh eq_refl) as H.
  split; [exact (proj1 (proj2 H)) | exact (proj2 (proj2 (proj2 H)))].
Defined.

(** C8 on a newly constructed processor. *)
Lemma loadImage_without_encoder_fails_unchanged_witness :
  clip_ctx_ (self fresh) = None
  /\ fst (loadImage "room.png" fresh) = Ret false
  /\ self (snd (loadImage "room.png" fresh)) = self fresh.
Proof.
  split; [reflexivity|].
  pose proof (loadImage_without_encoder_fails_unchanged "room.png" fresh
                eq_refl) as H.
  split; [exact (proj1 H) | exact (proj1 (proj2 H))].
Defined.

(** The session is a history of public calls. *)
Lemma session_reachable : reachable config0 session session_world.
Proof.
  unfold session_world, session. cbn [fold_left].
  apply (reachable_call
           (cs := [Call_initialize good_config;
                   Call_generateFromImage "room.png" "Describe this"])
           Call_cleanup).
  apply (reachable_call
           (cs := [Call_initialize good_config])
           (Call_generateFromImage "room.png" "Describe this")).
  apply (reachable_call (cs := []) (Call_initialize good_config)).
  apply reachable_new.
Defined.

(** C9 on the session. *)
Lemma vision_encoder_never_loaded_witness :
  reachable config0 session session_world
  /\ clip_ctx_ (self session_world) = None
  /\ mode (self session_world) <> Multimodal.
Proof.
  split; [exact session_reachable|].
  pose proof (vision_encoder_never_loaded session_reachable) as H.
  split; [exact (proj1 H) | exact (proj1 (proj2 H))].
Defined.

(** The test double's generation calls are never undefined. *)
Lemma engine_generate_defined :
  (forall p e, fst (llm_generate p e) <> Undefined)
  /\ (forall p cb e, fst (llm_generateStreaming p cb e) <> Undefined).
Proof. split; intros; destruct e; discriminate. Qed.

(** X1 on a processor whose [llm_] is null. *)
Lemma no_null_dereference_witness :
  (forall p e, fst (llm_generate p e) <> Undefined)
  /\ (forall p cb e, fst (llm_generateStreaming p cb e) <> Undefined)
  /\ fst (cleanup fresh) = Ret tt
  /\ fst (generateFromImage "room.png" "Describe this" fresh) <> Undefined.
Proof.
  split; [exact (proj1 engine_generate_defined)|].
  split; [exact (proj2 engine_generate_defined)|].
  pose proof (no_null_dereference good_config "room.png" "Describe this"
                0%nat fresh (proj1 engine_generate_defined)
                (proj2 engine_generate_defined)) as H.
  split; [exact (proj1 (proj2 H)) | exact (proj1 (proj2 (proj2 (proj2 H))))].
Defined.

(** X2 on a loaded processor with encoder and cached embedding. *)
Lemma generation_returns_engine_outcome_witness :
  llm_ (self multimodal_world) = Some true
  /\ llm_isLoaded true = true
  /\ fst (generateFromImage "room.png" "Describe this" multimodal_world)
     = Ret ("echo: USER: <image>" ++ LF ++ "Describe this" ++ LF
              ++ "ASSISTANT: ").
Proof.
  split; [reflexivity|]. split; [reflexivity|].
  exact (proj1 (generation_returns_engine_outcome "room.png" "Describe this"
                  0%nat multimodal_world eq_refl eq_refl)).
Defined.

(** X6 on the long session, which still holds its second engine. *)
Lemma engine_objects_balanced_witness :
  reachable config0 long_session long_session_world
  /\ count_events is_llm_new (trace long_session_world) = 3%nat
  /\ count_events is_llm_delete (trace long_session_world) = 2%nat
  /\ engines_held (self long_session_world) = 1%nat
  /\ count_events is_llm_new
       (trace (snd (MultimodalProcessor_delete long_session_world)))
     = count_events is_llm_delete
         (trace (snd (MultimodalProcessor_delete long_session_world))).
Proof.
  split; [exact (reachable_fold_left config0 long_session)|].
  repeat (split; [reflexivity|]).
  exact (proj2 (engine_objects_balanced
                  (reachable_fold_left config0 long_session))).
Defined.

(** X7 on the long session. *)
Lemma config_is_last_initialize_witness :
  reachable config0 long_session long_session_world
  /\ config_ (self long_session_world) = good_config.
Proof.
  split; [exact (reachable_fold_left config0 long_session)|].
  exact (config_is_last_initialize (reachable_fold_left config0 long_session)).
Defined.

(** X8 on the long session. *)
Lemma embedding_slot_never_filled_witness :
  reachable config0 long_session long_session_world
  /\ image_embed_ (self long_session_world) = None.
Proof.
  split; [exact (reachable_fold_left config0 long_session)|].
  exact (proj1 (embedding_slot_never_filled
                  (reachable_fold_left config0 long_session))).
Defined.

(** X9 on the long session. *)
Lemma engine_used_only_while_alive_witness :
  reachable config0 long_session long_session_world
  /\ engine_protocol 0 (trace long_session_world) = Some 1%nat.
Proof.
  split; [exact (reachable_fold_left config0 long_session)|].
  exact (engine_used_only_while_alive
           (reachable_fold_left config0 long_session)).
Defined.

(** X10 on the unloadable configuration. *)
Lemma generation_after_failed_initialize_witness :
  fst (llm_initialize (llm_config_of bad_config) make_unique) = false
  /\ generateFromImage "room.png" "Describe this"
                       (snd (initialize bad_config fresh))
     = (Throw "Multimodal processor not initialized",
        snd (initialize bad_config fresh)).
Proof.
  split; [reflexivity|].
  exact (proj1 (proj2 (generation_after_failed_initialize
                         (C := engine_contract) bad_config "room.png"
                         "Describe this" 0%nat fresh eq_refl))).
Defined.

End OnTestDouble.
